(** * Product services: the transactional product / purchase-ledger core

    A shallow embedding of [server/src/modules/product/product.services.ts]
    (class [ProductServices]: [create], [countTotalProduct], [read],
    [bulkDelete], [addToStock]) and the properties of its create / replenish /
    delete / read paths.  [readAll] is built from two pipeline helpers that
    are not part of the file and is left out.

    Modelling conventions.
    - Collections are finite maps from document id to document ([gmap]);
      the purchase ledger is a list, oldest entry first, because entries are
      only ever appended and their number matters.
    - JavaScript numbers are restricted to integers and modelled by [Z];
      [Number(x)] is then the identity and [*] is exact.
    - Every call into mongoose / the MongoDB driver may throw.  Which call
      throws, and with which message, is an input of the model ([Faults]);
      [no_faults] is the run in which the storage engine never fails.
    - A session has a pending copy of the store.  Writes made with
      [{ session }] go to the pending copy, [commitTransaction] publishes it
      and [abortTransaction] discards it.  Reads made without a session see
      the published store. *)

From stdpp Require Import gmap strings list fin_maps.
From Stdlib Require Import ZArith Lia.

Local Open Scope Z_scope.
Local Open Scope string_scope.

(** ** Documents *)

(** Document ids ([Types.ObjectId]) are kept in their string form. *)
Abbreviation ObjectId := string.

(** The request payload ([IProduct]).  A JavaScript object may lack any key,
    so every field is optional at run time. *)
Record IProduct := mkIProduct {
  name : option string;
  price : option Z;
  seller : option ObjectId;
  stock : option Z;
  category : option ObjectId;
  brand : option ObjectId;
  user : option ObjectId
}.

(** The payload of [addToStock]: [Pick<IProduct, 'seller' | 'stock'>]. *)
Record StockPayload := mkStockPayload {
  sp_seller : ObjectId;
  sp_stock : Z
}.

Record Product := mkProduct {
  p_id : ObjectId;
  p_name : string;
  p_price : Z;
  p_stock : Z;
  p_seller : ObjectId;
  p_category : option ObjectId;
  p_brand : option ObjectId;
  p_user : ObjectId
}.

Record Seller := mkSeller {
  s_name : string
}.

Record Purchase := mkPurchase {
  pu_user : ObjectId;
  pu_seller : ObjectId;
  pu_product : ObjectId;
  pu_sellerName : string;
  pu_productName : string;
  pu_quantity : Z;
  pu_unitPrice : Z;
  pu_totalPrice : Z
}.

Record Store := mkStore {
  products : gmap string Product;
  purchases : list Purchase;
  sellers : gmap string Seller
}.

(** ** Errors *)

Inductive Error :=
  | CustomError (statusCode : Z) (msg : string)
  | Thrown (msg : string).

Definition message (e : Error) : string :=
  match e with
  | CustomError _ m => m
  | Thrown m => m
  end.

Inductive Result (A : Type) :=
  | Ok (a : A)
  | Err (e : Error).
Arguments Ok {A} a.
Arguments Err {A} e.

(** ** The storage engine as seen by the service *)

Inductive Step :=
  | ObjectIdCast
  | StartSession
  | SellerFindById
  | ProductCreate
  | ProductFindByIdAndUpdate
  | ProductFindOne
  | ProductDeleteMany
  | PurchaseCreate
  | CommitTransaction.

Definition Faults := Step -> option string.

Definition no_faults : Faults := fun _ => None.

(** The published store and the pending copy of the open session. *)
Record World := mkWorld {
  visible : Store;
  pending : Store
}.

(** State and exception monad of one request. *)
Definition M (A : Type) := World -> Result A * World.

Definition ret {A} (a : A) : M A := fun w => (Ok a, w).

Definition throw {A} (e : Error) : M A := fun w => (Err e, w).

Definition bind {A B} (m : M A) (k : A -> M B) : M B :=
  fun w =>
    match m w with
    | (Ok a, w') => k a w'
    | (Err e, w') => (Err e, w')
    end.

Notation "x <- m ;; k" := (bind m (fun x => k))
  (at level 100, m at next level, right associativity).
Notation "m ;;; k" := (bind m (fun _ => k))
  (at level 100, right associativity).

(** [try { body } catch (error) { handler error }] *)
Definition try_catch {A} (body : M A) (handler : Error -> M A) : M A :=
  fun w =>
    match body w with
    | (Ok a, w') => (Ok a, w')
    | (Err e, w') => handler e w'
    end.

(** A library call that throws when the engine says so. *)
Definition may_throw (f : Faults) (s : Step) : M unit :=
  match f s with
  | Some m => throw (Thrown m)
  | None => ret tt
  end.

Definition startTransaction : M unit :=
  fun w => (Ok tt, mkWorld (visible w) (visible w)).

Definition commitTransaction (f : Faults) : M unit :=
  may_throw f CommitTransaction ;;;
  fun w => (Ok tt, mkWorld (pending w) (pending w)).

Definition abortTransaction : M unit :=
  fun w => (Ok tt, mkWorld (visible w) (visible w)).

(** [Seller.findById(id)]: no session is passed, the read sees the
    published store. *)
Definition Seller_findById (f : Faults) (id : option ObjectId) : M (option Seller) :=
  may_throw f SellerFindById ;;;
  fun w => (Ok (id ≫= fun i => sellers (visible w) !! i), w).

(** Modelled from the spec: [product.model] is not part of the sources; the
    spec's data model gives [stock] the default 0. *)
Definition stock_default : Z := 0.

(** Modelled from the spec: [product.model] is not part of the sources; the
    spec's data model makes [name], [price] and [seller] required and gives
    every product an owning user.  The document built by [Model.create] from
    a payload, with the generated [_id]. *)
Definition Product_new (newId : ObjectId) (payload : IProduct) : option Product :=
  match name payload, price payload, seller payload, user payload with
  | Some n, Some pr, Some s, Some u =>
      Some (mkProduct newId n pr (default stock_default (stock payload)) s
              (category payload) (brand payload) u)
  | _, _, _, _ => None
  end.

(** [this.model.create([payload], { session })]: the insert goes to the
    pending copy and the created documents are returned.  A document that
    fails validation or whose [_id] is already taken is refused. *)
Definition Product_create (f : Faults) (newId : ObjectId) (payload : IProduct)
  : M (list Product) :=
  may_throw f ProductCreate ;;;
  fun w =>
    match Product_new newId payload with
    | None => (Err (Thrown "Product validation failed"), w)
    | Some p =>
        match products (pending w) !! newId with
        | Some _ => (Err (Thrown "E11000 duplicate key error"), w)
        | None =>
            (Ok [p],
             mkWorld (visible w)
               (mkStore (<[newId := p]> (products (pending w)))
                        (purchases (pending w)) (sellers (pending w))))
        end
    end.

(** [Purchase.create([entry], { session })] *)
Definition Purchase_create (f : Faults) (entry : Purchase) : M unit :=
  may_throw f PurchaseCreate ;;;
  fun w =>
    (Ok tt,
     mkWorld (visible w)
       (mkStore (products (pending w)) (purchases (pending w) ++ [entry])
                (sellers (pending w)))).

(** The effect of [{ $inc: { stock: d } }] on one document. *)
Definition inc_stock (p : Product) (d : Z) : Product :=
  mkProduct (p_id p) (p_name p) (p_price p) (p_stock p + d)
            (p_seller p) (p_category p) (p_brand p) (p_user p).

(** [findByIdAndUpdate(id, { $inc: { stock: d } }, { session })].  No
    [new: true] option is passed, so the document returned is the one found,
    as it was before the increment. *)
Definition Product_findByIdAndUpdate_inc (f : Faults) (id : ObjectId) (d : Z)
  : M (option Product) :=
  may_throw f ProductFindByIdAndUpdate ;;;
  fun w =>
    match products (pending w) !! id with
    | None => (Ok None, w)
    | Some p =>
        (Ok (Some p),
         mkWorld (visible w)
           (mkStore (<[id := inc_stock p d]> (products (pending w)))
                    (purchases (pending w)) (sellers (pending w))))
    end.

(** [this.model.deleteMany({ _id: { $in: data } })], outside any session:
    the published store changes at once.  Returns the deleted count. *)
Definition Product_deleteMany (f : Faults) (ids : list ObjectId) : M nat :=
  may_throw f ProductDeleteMany ;;;
  fun w =>
    let kept := filter (fun kv => kv.1 ∉ ids) (products (visible w)) in
    (Ok (size (products (visible w)) - size kept)%nat,
     mkWorld (mkStore kept (purchases (visible w)) (sellers (visible w)))
             (pending w)).

(** [this.model.findOne({ user, _id })] *)
Definition Product_findOne (f : Faults) (userId id : ObjectId) : M (option Product) :=
  may_throw f ProductFindOne ;;;
  fun w =>
    (Ok (match products (visible w) !! id with
         | Some p => if decide (p_user p = userId) then Some p else None
         | None => None
         end), w).

(** [new Types.ObjectId(s)] *)
Definition new_ObjectId (f : Faults) (s : string) : M ObjectId :=
  may_throw f ObjectIdCast ;;; ret s.

(** Running a request against a published store. *)
Definition run {A} (m : M A) (db : Store) : Result A * Store :=
  match m (mkWorld db db) with
  | (r, w) => (r, visible w)
  end.

(** ** [ProductServices.create] *)

Definition strip (o : option string) : option string :=
  match o with
  | Some s => if decide (s = "") then None else Some s
  | None => None
  end.

(** The loop deleting every key whose value is [''].  Numbers are never
    [=== '']. *)
Definition removeEmptyFields (payload : IProduct) : IProduct :=
  mkIProduct (strip (name payload)) (price payload) (strip (seller payload))
             (stock payload) (strip (category payload)) (strip (brand payload))
             (strip (user payload)).

Definition truthy_string (o : option string) : bool :=
  match o with
  | Some s => negb (bool_decide (s = ""))
  | None => false
  end.

Definition truthy_number (o : option Z) : bool :=
  match o with
  | Some n => negb (n =? 0)%Z
  | None => false
  end.

(** The negation of [!payload.name || !payload.price || !payload.seller]. *)
Definition hasRequiredFields (payload : IProduct) : bool :=
  truthy_string (name payload) && truthy_number (price payload)
  && truthy_string (seller payload).

Definition missing_fields_error : Error :=
  CustomError 400 "Missing required fields: name, price, or seller".

Definition set_user (payload : IProduct) (u : ObjectId) : IProduct :=
  mkIProduct (name payload) (price payload) (seller payload) (stock payload)
             (category payload) (brand payload) (Some u).

Definition create_purchase_entry (userId : ObjectId) (s : Seller) (p : Product)
  : Purchase :=
  mkPurchase userId (p_seller p) (p_id p) (s_name s) (p_name p)
             (p_stock p) (p_price p) (p_stock p * p_price p).

(** The [try] block of [create].  [Model.create] is given a one-element
    array and answers with a one-element array; [product[0]?.x] on an empty
    answer would hand [undefined] fields to [Purchase.create], which is
    modelled as a refused insert. *)
Definition create_body (f : Faults) (newId : ObjectId) (payload : IProduct)
    (userId : ObjectId) : M (list Product) :=
  startTransaction ;;;
  s <- Seller_findById f (seller payload) ;;
  match s with
  | None => throw (CustomError 400 "Invalid seller ID provided")
  | Some sel =>
      product <- Product_create f newId payload ;;
      match product with
      | p :: _ =>
          Purchase_create f (create_purchase_entry userId sel p) ;;;
          commitTransaction f ;;;
          ret product
      | [] => throw (Thrown "Purchase validation failed")
      end
  end.

(** Everything after the required-field check: the owner is set, a session
    is opened and the [try] / [catch] block runs.  The [catch] block aborts
    and throws a fresh status-400 error around the message of whatever was
    caught; [console.error] and the [finally] block ([endSession]) leave the
    store alone and are not modelled. *)
Definition create_transaction (f : Faults) (newId : ObjectId) (payload : IProduct)
    (userId : ObjectId) : M (list Product) :=
  u <- new_ObjectId f userId ;;
  let payload := set_user payload u in
  may_throw f StartSession ;;;
  try_catch (create_body f newId payload userId)
    (fun error =>
       abortTransaction ;;;
       throw (CustomError 400 ("Product create failed: " +:+ message error))).

Definition create_M (f : Faults) (newId : ObjectId) (payload0 : IProduct)
    (userId : ObjectId) : M (list Product) :=
  let payload := removeEmptyFields payload0 in
  if negb (hasRequiredFields payload) then throw missing_fields_error
  else create_transaction f newId payload userId.

Definition create (f : Faults) (newId : ObjectId) (payload : IProduct)
    (userId : ObjectId) (db : Store) : Result (list Product) * Store :=
  run (create_M f newId payload userId) db.

(** ** [ProductServices.read] *)

(** Modelled from the spec: [BaseServices._isExists] is not part of the
    sources; the spec lists it as an existence check.  It raises an error
    when no product has the id and otherwise does nothing.  The spec does
    not describe the error; the statements below do not depend on it. *)
Definition _isExists (id : ObjectId) : M unit :=
  fun w =>
    match products (visible w) !! id with
    | Some _ => (Ok tt, w)
    | None => (Err (CustomError 404 "Product not found"), w)
    end.

Definition read_M (f : Faults) (id userId : ObjectId) : M (option Product) :=
  _isExists id ;;;
  u <- new_ObjectId f userId ;;
  Product_findOne f u id.

Definition read (f : Faults) (id userId : ObjectId) (db : Store)
  : Result (option Product) * Store :=
  run (read_M f id userId) db.

(** ** [ProductServices.bulkDelete] *)

Fixpoint mapM {A B} (g : A -> M B) (l : list A) : M (list B) :=
  match l with
  | [] => ret []
  | x :: l' => y <- g x ;; ys <- mapM g l' ;; ret (y :: ys)
  end.

Definition bulkDelete_M (f : Faults) (payload : list string) : M nat :=
  data <- mapM (new_ObjectId f) payload ;;
  Product_deleteMany f data.

Definition bulkDelete (f : Faults) (payload : list string) (db : Store)
  : Result nat * Store :=
  run (bulkDelete_M f payload) db.

(** ** [ProductServices.addToStock] *)

Definition stock_purchase_entry (userId : ObjectId) (s : Seller) (p : Product)
    (payload : StockPayload) : Purchase :=
  mkPurchase userId (p_seller p) (p_id p) (s_name s) (p_name p)
             (sp_stock payload) (p_price p) (sp_stock payload * p_price p).

(** The [try] block of [addToStock].  The value returned is the one bound
    to [product], the answer of [findByIdAndUpdate]. *)
Definition addToStock_body (f : Faults) (id : ObjectId) (payload : StockPayload)
    (userId : ObjectId) : M Product :=
  startTransaction ;;;
  s <- Seller_findById f (Some (sp_seller payload)) ;;
  match s with
  | None => throw (CustomError 400 "Invalid seller ID provided")
  | Some sel =>
      product <- Product_findByIdAndUpdate_inc f id (sp_stock payload) ;;
      match product with
      | None => throw (CustomError 404 "Product not found")
      | Some p =>
          Purchase_create f (stock_purchase_entry userId sel p payload) ;;;
          commitTransaction f ;;;
          ret p
      end
  end.

Definition addToStock_M (f : Faults) (id : ObjectId) (payload : StockPayload)
    (userId : ObjectId) : M Product :=
  may_throw f StartSession ;;;
  try_catch (addToStock_body f id payload userId)
    (fun error =>
       abortTransaction ;;;
       throw (CustomError 400 ("Stock update failed: " +:+ message error))).

Definition addToStock (f : Faults) (id : ObjectId) (payload : StockPayload)
    (userId : ObjectId) (db : Store) : Result Product * Store :=
  run (addToStock_M f id payload userId) db.

(** ** Sequences of operations *)

Inductive Op :=
  | OpCreate (f : Faults) (newId : ObjectId) (payload : IProduct) (userId : ObjectId)
  | OpAddStock (f : Faults) (id : ObjectId) (payload : StockPayload) (userId : ObjectId).

Definition exec (op : Op) (db : Store) : Store :=
  match op with
  | OpCreate f newId payload userId => (create f newId payload userId db).2
  | OpAddStock f id payload userId => (addToStock f id payload userId db).2
  end.

Definition exec_all (ops : list Op) (db : Store) : Store :=
  foldl (fun d op => exec op d) db ops.

(** ** Predicates used in the statements *)

Definition stock_nonneg (db : Store) : Prop :=
  forall id p, products db !! id = Some p -> 0 <= p_stock p.

(** An operation whose stock value cannot take a product below zero in the
    store it runs against. *)
Definition op_keeps_stock (op : Op) (db : Store) : Prop :=
  match op with
  | OpCreate _ _ payload _ => 0 <= default stock_default (stock payload)
  | OpAddStock _ id payload _ =>
      forall p, products db !! id = Some p -> 0 <= p_stock p + sp_stock payload
  end.

Fixpoint ops_keep_stock (ops : list Op) (db : Store) : Prop :=
  match ops with
  | [] => True
  | op :: ops' => op_keeps_stock op db /\ ops_keep_stock ops' (exec op db)
  end.

Definition all_present (payload : IProduct) : Prop :=
  is_Some (name payload) /\ is_Some (price payload) /\ is_Some (seller payload).

(** "The call fails with the missing-field error exactly when a required
    field is absent after stripping." *)
Definition missing_iff_absent (f : Faults) (newId : ObjectId) (payload : IProduct)
    (userId : ObjectId) (db : Store) : Prop :=
  (create f newId payload userId db).1 = Err missing_fields_error <->
  ~ all_present (removeEmptyFields payload).

Definition with_user (u : ObjectId) (e : Purchase) : Purchase :=
  mkPurchase u (pu_seller e) (pu_product e) (pu_sellerName e) (pu_productName e)
             (pu_quantity e) (pu_unitPrice e) (pu_totalPrice e).

(** ** The running example *)

Definition db0 : Store :=
  mkStore ∅ [] {[ "S1" := mkSeller "Acme" ]}.

Definition widget : IProduct :=
  mkIProduct (Some "Widget") (Some 10) (Some "S1") (Some 5) None None None.

Definition free_widget : IProduct :=
  mkIProduct (Some "Widget") (Some 0) (Some "S1") (Some 5) None None None.

Definition widget_product : Product :=
  mkProduct "P1" "Widget" 10 5 "S1" None None "U1".

Definition db1 : Store :=
  mkStore {[ "P1" := widget_product ]}
          [mkPurchase "U1" "S1" "P1" "Acme" "Widget" 5 10 50]
          {[ "S1" := mkSeller "Acme" ]}.

(** ** [ProductServices.countTotalProduct] *)

(** The documents produced by the pipeline: [{ totalQuantity }]. *)
Record TotalQuantity := mkTotalQuantity {
  totalQuantity : Z
}.

(** [{ $match: { user } }] *)
Definition match_user (u : ObjectId) (m : gmap string Product)
  : gmap string Product :=
  filter (fun kv => p_user kv.2 = u) m.

(** [{ $sum: '$stock' }] over a set of documents. *)
Definition sum_stock (m : gmap string Product) : Z :=
  map_fold (fun _ p acc => p_stock p + acc) 0 m.

(** [this.model.aggregate([$match, $group, $project])], outside any session.
    [$group] with [_id: null] emits one document for the single group of the
    matched documents and none when nothing matched; [$project] keeps
    [totalQuantity] and drops [_id].  The aggregate call is one more library
    call that may throw; its fault is passed on its own. *)
Definition Product_aggregate_totalQuantity (fault : option string) (u : ObjectId)
  : M (list TotalQuantity) :=
  match fault with
  | Some m => throw (Thrown m)
  | None =>
      fun w =>
        let matched := match_user u (products (visible w)) in
        (Ok (if decide (size matched = 0%nat) then []
             else [mkTotalQuantity (sum_stock matched)]), w)
  end.

Definition countTotalProduct_M (f : Faults) (fault : option string)
    (userId : ObjectId) : M (list TotalQuantity) :=
  u <- new_ObjectId f userId ;;
  Product_aggregate_totalQuantity fault u.

Definition countTotalProduct (f : Faults) (fault : option string)
    (userId : ObjectId) (db : Store) : Result (list TotalQuantity) * Store :=
  run (countTotalProduct_M f fault userId) db.

(** ** Sequences of calls to the service *)

Inductive Call :=
  | CallOp (op : Op)
  | CallBulkDelete (f : Faults) (payload : list string)
  | CallRead (f : Faults) (id userId : ObjectId)
  | CallCount (f : Faults) (fault : option string) (userId : ObjectId).

Definition serve (c : Call) (db : Store) : Store :=
  match c with
  | CallOp op => exec op db
  | CallBulkDelete f payload => (bulkDelete f payload db).2
  | CallRead f id userId => (read f id userId db).2
  | CallCount f fault userId => (countTotalProduct f fault userId db).2
  end.

Definition serve_all (cs : list Call) (db : Store) : Store :=
  foldl (fun d c => serve c d) db cs.

(** ** Further predicates *)


(** The quantity the ledger records for one product id. *)
Fixpoint ledger_quantity (id : ObjectId) (l : list Purchase) : Z :=
  match l with
  | [] => 0
  | e :: l' =>
      (if decide (pu_product e = id) then pu_quantity e else 0)
      + ledger_quantity id l'
  end.

(** Every product is stored under its own [_id], and for every id the
    ledger adds up to the stock of the product (0 for an id without a
    product). *)
Definition ledger_matches (db : Store) : Prop :=
  forall id,
    (forall p, products db !! id = Some p -> p_id p = id)
    /\ ledger_quantity id (purchases db)
       = from_option p_stock 0 (products db !! id).

(** An engine that fails at commit time only. *)
Definition commit_fails : Faults :=
  fun s =>
    match s with
    | CommitTransaction => Some "write conflict"
    | _ => None
    end.

(** A second seller for the examples. *)
Definition db2 : Store :=
  mkStore {[ "P1" := widget_product ]}
          [mkPurchase "U1" "S1" "P1" "Acme" "Widget" 5 10 50]
          {[ "S1" := mkSeller "Acme"; "S2" := mkSeller "Globex" ]}.

(** * Properties *)

Example create_widget :
  create no_faults "P1" widget "U1" db0 = (Ok [widget_product], db1).
Proof. vm_compute. reflexivity. Qed.

Example add_three :
  (addToStock no_faults "P1" (mkStockPayload "S1" 3) "U1" db1).2 =
  mkStore {[ "P1" := mkProduct "P1" "Widget" 10 8 "S1" None None "U1" ]}
          [mkPurchase "U1" "S1" "P1" "Acme" "Widget" 5 10 50;
           mkPurchase "U1" "S1" "P1" "Acme" "Widget" 3 10 30]
          {[ "S1" := mkSeller "Acme" ]}.
Proof. vm_compute. reflexivity. Qed.

(** ** The request monad *)

Lemma may_throw_ok (f : Faults) (s : Step) (w : World) :
  f s = None -> may_throw f s w = (Ok tt, w).
Proof. intros H. unfold may_throw. rewrite H. reflexivity. Qed.

Lemma may_throw_err (f : Faults) (s : Step) (m : string) (w : World) :
  f s = Some m -> may_throw f s w = (Err (Thrown m), w).
Proof. intros H. unfold may_throw. rewrite H. reflexivity. Qed.

Ltac unfold_ops :=
  cbv [create addToStock bulkDelete read run create_M create_transaction
       create_body addToStock_M addToStock_body read_M bulkDelete_M
       try_catch bind ret throw may_throw new_ObjectId startTransaction
       commitTransaction abortTransaction Seller_findById Product_create
       Purchase_create Product_findByIdAndUpdate_inc Product_findOne
       Product_deleteMany _isExists].

Lemma truthy_string_Some (o : option string) :
  truthy_string o = true -> exists s, o = Some s /\ s <> "".
Proof.
  destruct o as [s|]; simpl; [|discriminate].
  intros H. exists s. split; [reflexivity|].
  intros ->. rewrite bool_decide_eq_true_2 in H by reflexivity. discriminate.
Qed.

Lemma truthy_number_Some (o : option Z) :
  truthy_number o = true -> exists n, o = Some n /\ n <> 0.
Proof.
  destruct o as [n|]; simpl; [|discriminate].
  intros H. exists n. split; [reflexivity|].
  intros ->. discriminate.
Qed.

Lemma hasRequiredFields_true (payload : IProduct) :
  hasRequiredFields payload = true ->
  exists n pr s,
    name payload = Some n /\ price payload = Some pr /\ seller payload = Some s
    /\ n <> "" /\ pr <> 0 /\ s <> "".
Proof.
  unfold hasRequiredFields. rewrite !andb_true_iff. intros [[Hn Hp] Hs].
  apply truthy_string_Some in Hn as (n & ? & ?).
  apply truthy_number_Some in Hp as (pr & ? & ?).
  apply truthy_string_Some in Hs as (s & ? & ?).
  exists n, pr, s. auto 10.
Qed.

Lemma strip_Some (o : option string) (s : string) :
  strip o = Some s <-> o = Some s /\ s <> "".
Proof.
  unfold strip. destruct o as [t|]; [|split; [discriminate|intros [? _]; discriminate]].
  destruct (decide (t = "")) as [->|Hne]; split.
  - discriminate.
  - intros [[= <-] H]. contradiction.
  - intros [= <-]. auto.
  - intros [[= <-] _]. reflexivity.
Qed.

(** After the required-field check the document can always be built. *)
Lemma Product_new_required (newId u : ObjectId) (payload : IProduct) :
  hasRequiredFields payload = true ->
  exists p, Product_new newId (set_user payload u) = Some p.
Proof.
  intros H. apply hasRequiredFields_true in H as (n & pr & s & Hn & Hp & Hs & _).
  unfold Product_new, set_user. simpl. rewrite Hn, Hp, Hs. eauto.
Qed.

Lemma Product_new_fields (newId u : ObjectId) (payload : IProduct) (p : Product) :
  Product_new newId (set_user payload u) = Some p ->
  p_id p = newId /\ p_user p = u
  /\ name payload = Some (p_name p) /\ price payload = Some (p_price p)
  /\ seller payload = Some (p_seller p)
  /\ p_stock p = default stock_default (stock payload).
Proof.
  unfold Product_new, set_user. simpl.
  destruct (name payload), (price payload), (seller payload); try discriminate.
  intros [= <-]. simpl. auto 10.
Qed.

(** ** [create]: the outcomes of one call *)

Arguments Product_new : simpl never.

(** One library call: either it throws, and the goal's error branch is
    closed, or the run goes on. *)
Ltac fault_case f s :=
  destruct (f s) eqn:?; simpl; [right; eauto 10|].

Lemma create_cases f newId payload userId db :
  hasRequiredFields (removeEmptyFields payload) = true ->
  (exists p sel,
     Product_new newId (set_user (removeEmptyFields payload) userId) = Some p
     /\ (strip (seller payload) ≫= fun i => sellers db !! i) = Some sel
     /\ products db !! newId = None
     /\ create f newId payload userId db =
          (Ok [p],
           mkStore (<[newId := p]> (products db))
                   (purchases db ++ [create_purchase_entry userId sel p])
                   (sellers db)))
  \/ (exists e,
        create f newId payload userId db = (Err e, db)
        /\ ((exists s m, f s = Some m)
            \/ (strip (seller payload) ≫= fun i => sellers db !! i) = None
            \/ is_Some (products db !! newId))
        /\ (exists m,
              e = Thrown m
              \/ e = CustomError 400 ("Product create failed: " +:+ m))).
Proof.
  intros Hv.
  destruct (Product_new_required newId userId _ Hv) as [p Hp].
  unfold_ops. rewrite Hv. simpl.
  fault_case f ObjectIdCast.
  fault_case f StartSession.
  fault_case f SellerFindById.
  destruct (strip (seller payload) ≫= fun i => sellers db !! i)
    as [sel|] eqn:Hs; simpl; [|right; eauto 10].
  fault_case f ProductCreate.
  rewrite Hp. simpl.
  destruct (products db !! newId) eqn:Hn; simpl; [right; eauto 10|].
  fault_case f PurchaseCreate.
  fault_case f CommitTransaction.
  left. exists p, sel. auto.
Qed.

(** C1.  A create call whose payload passes the required-field check either
    commits the product together with exactly one purchase entry (quantity
    the product's stock, 0 when the payload sets none, unit price the
    product's price, total price stock times price), or ends in an error and
    leaves the store as it was.  With a resolving seller, a free id and no
    engine fault the call commits. *)
Theorem create_product_and_purchase_or_nothing
    (f : Faults) (newId : ObjectId) (payload : IProduct) (userId : ObjectId)
    (db : Store) :
  hasRequiredFields (removeEmptyFields payload) = true ->
  ((exists p entry,
      create f newId payload userId db =
        (Ok [p],
         mkStore (<[newId := p]> (products db)) (purchases db ++ [entry])
                 (sellers db))
      /\ products db !! newId = None
      /\ p_id p = newId
      /\ p_stock p = default 0 (stock payload)
      /\ price payload = Some (p_price p)
      /\ pu_product entry = newId
      /\ pu_quantity entry = p_stock p
      /\ pu_unitPrice entry = p_price p
      /\ pu_totalPrice entry = p_stock p * p_price p)
   \/ (exists e, create f newId payload userId db = (Err e, db)))
  /\ ((forall s, f s = None) ->
      is_Some (strip (seller payload) ≫= fun i => sellers db !! i) ->
      products db !! newId = None ->
      exists p, (create f newId payload userId db).1 = Ok [p]).
Proof.
  intros Hv.
  destruct (create_cases f newId payload userId db Hv)
    as [(p & sel & Hp & Hs & Hn & Hc) | (e & Hc & Hwhy & _)].
  - apply Product_new_fields in Hp as (Hid & _ & _ & Hpr & _ & Hst).
    split.
    + left. exists p, (create_purchase_entry userId sel p).
      simpl. rewrite Hid. auto 10.
    + intros _ _ _. exists p. rewrite Hc. reflexivity.
  - split; [right; eauto|].
    intros Hf Hsel Hfree. exfalso.
    destruct Hwhy as [(s & m & Hm) | [Hnone | Htaken]].
    + rewrite Hf in Hm. discriminate.
    + rewrite Hnone in Hsel. destruct Hsel as [? ?]. discriminate.
    + rewrite Hfree in Htaken. destruct Htaken as [? ?]. discriminate.
Qed.

Lemma create_product_and_purchase_or_nothing_witness :
  hasRequiredFields (removeEmptyFields widget) = true
  /\ exists p, (create no_faults "P1" widget "U1" db0).1 = Ok [p].
Proof.
  split; [reflexivity|].
  apply (create_product_and_purchase_or_nothing no_faults "P1" widget "U1" db0).
  - reflexivity.
  - reflexivity.
  - vm_compute. eauto.
  - reflexivity.
Defined.

(** ** [addToStock]: the outcomes of one call *)

Lemma addToStock_cases f id payload userId db :
  (exists p sel,
     products db !! id = Some p
     /\ sellers db !! sp_seller payload = Some sel
     /\ addToStock f id payload userId db =
          (Ok p,
           mkStore (<[id := inc_stock p (sp_stock payload)]> (products db))
                   (purchases db ++ [stock_purchase_entry userId sel p payload])
                   (sellers db)))
  \/ (exists e,
        addToStock f id payload userId db = (Err e, db)
        /\ ((exists s m, f s = Some m)
            \/ sellers db !! sp_seller payload = None
            \/ products db !! id = None)).
Proof.
  unfold_ops. simpl.
  fault_case f StartSession.
  fault_case f SellerFindById.
  destruct (sellers db !! sp_seller payload) as [sel|] eqn:Hs; simpl;
    [|right; eauto 10].
  fault_case f ProductFindByIdAndUpdate.
  destruct (products db !! id) as [p|] eqn:Hp; simpl; [|right; eauto 10].
  fault_case f PurchaseCreate.
  fault_case f CommitTransaction.
  left. exists p, sel. auto.
Qed.

(** Whatever happens, a failed call leaves the store as it was. *)
Lemma addToStock_error_rolls_back f id payload userId db e :
  (addToStock f id payload userId db).1 = Err e ->
  (addToStock f id payload userId db).2 = db.
Proof.
  destruct (addToStock_cases f id payload userId db)
    as [(p & sel & _ & _ & Hc) | (e' & Hc & _)]; rewrite Hc; simpl.
  - discriminate.
  - reflexivity.
Qed.

(** The document handed back by a successful call is the one that was in
    the store before the increment. *)
Lemma addToStock_returns_found_document f id payload userId db p :
  (addToStock f id payload userId db).1 = Ok p ->
  products db !! id = Some p.
Proof.
  destruct (addToStock_cases f id payload userId db)
    as [(p' & sel & Hp & _ & Hc) | (e' & Hc & _)]; rewrite Hc; simpl.
  - intros [= <-]. exact Hp.
  - discriminate.
Qed.

(** An unknown product id with a resolving seller: the [404] raised inside
    the [try] block is caught and re-thrown as a [400]. *)
Lemma addToStock_not_found_rewrapped f id payload userId db sel :
  f StartSession = None -> f SellerFindById = None ->
  f ProductFindByIdAndUpdate = None ->
  sellers db !! sp_seller payload = Some sel ->
  products db !! id = None ->
  addToStock f id payload userId db =
    (Err (CustomError 400 "Stock update failed: Product not found"), db).
Proof.
  intros H1 H2 H3 Hs Hp. unfold_ops. simpl.
  rewrite H1; simpl. rewrite H2; simpl. rewrite Hs; simpl.
  rewrite H3; simpl. rewrite Hp; simpl. reflexivity.
Qed.

(** C2.  On an existing product with prior stock [s] and a resolving seller,
    a call that commits stores stock [s + d] for that product, leaves every
    other product alone and appends exactly one purchase entry with quantity
    [d], unit price the product's price and total price [d] times that
    price; a call that does not commit changes nothing.  Without an engine
    fault the call commits. *)
Theorem addToStock_increments_and_appends
    (f : Faults) (id : ObjectId) (payload : StockPayload) (userId : ObjectId)
    (db : Store) (p : Product) (sel : Seller) :
  products db !! id = Some p ->
  sellers db !! sp_seller payload = Some sel ->
  let d := sp_stock payload in
  let r := addToStock f id payload userId db in
  ((exists p' entry,
      products r.2 = <[id := p']> (products db)
      /\ p_stock p' = p_stock p + d
      /\ p_price p' = p_price p
      /\ purchases r.2 = (purchases db ++ [entry])%list
      /\ pu_product entry = p_id p
      /\ pu_user entry = userId
      /\ pu_quantity entry = d
      /\ pu_unitPrice entry = p_price p
      /\ pu_totalPrice entry = d * p_price p
      /\ sellers r.2 = sellers db
      /\ exists q, r.1 = Ok q)
   \/ (exists e, r = (Err e, db)))
  /\ ((forall s, f s = None) -> exists q, r.1 = Ok q).
Proof.
  intros Hp Hs d r. subst d r.
  destruct (addToStock_cases f id payload userId db)
    as [(p0 & sel0 & Hp0 & Hs0 & Hc) | (e & Hc & Hwhy)]; rewrite Hc; simpl.
  - rewrite Hp in Hp0. injection Hp0 as <-.
    split; [|eauto].
    left. exists (inc_stock p (sp_stock payload)),
                 (stock_purchase_entry userId sel0 p payload).
    simpl. eauto 15.
  - split; [right; eauto|].
    intros Hf. exfalso.
    destruct Hwhy as [(s & m & Hm) | [Hnone | Hnone]].
    + rewrite Hf in Hm. discriminate.
    + rewrite Hs in Hnone. discriminate.
    + rewrite Hp in Hnone. discriminate.
Qed.

Lemma addToStock_increments_and_appends_witness :
  exists q, (addToStock no_faults "P1" (mkStockPayload "S1" 3) "U1" db1).1 = Ok q.
Proof.
  apply (addToStock_increments_and_appends no_faults "P1"
           (mkStockPayload "S1" 3) "U1" db1 widget_product (mkSeller "Acme")).
  - reflexivity.
  - reflexivity.
  - reflexivity.
Defined.

(** C3.  Adding 3 to a product whose stock is 5 stores stock 8, but the
    value returned to the caller is the document as it was found, stock 5. *)
Theorem addToStock_returns_previous_stock :
  let r := addToStock no_faults "P1" (mkStockPayload "S1" 3) "U1" db1 in
  p_stock <$> products r.2 !! "P1" = Some 8
  /\ r.1 = Ok widget_product.
Proof. vm_compute. auto. Qed.

(** C4.  An id that names no product, with a resolving seller and a healthy
    engine: nothing is committed, and the error that reaches the caller
    carries status 400, not the 404 raised inside the [try] block. *)
Theorem addToStock_unknown_product_surfaces_400 :
  products db1 !! "P9" = None
  /\ addToStock no_faults "P9" (mkStockPayload "S1" 3) "U1" db1 =
       (Err (CustomError 400 "Stock update failed: Product not found"), db1).
Proof. split; reflexivity. Qed.

(** ** [create]: the seller check *)

Lemma create_invalid_seller_error f newId payload userId db :
  hasRequiredFields (removeEmptyFields payload) = true ->
  (strip (seller payload) ≫= fun i => sellers db !! i) = None ->
  f ObjectIdCast = None -> f StartSession = None -> f SellerFindById = None ->
  create f newId payload userId db =
    (Err (CustomError 400 "Product create failed: Invalid seller ID provided"),
     db).
Proof.
  intros Hv Hs H1 H2 H3. unfold_ops. rewrite Hv. simpl.
  rewrite H1; simpl. rewrite H2; simpl. rewrite H3; simpl.
  rewrite Hs; simpl. reflexivity.
Qed.

Lemma unresolved_after_strip (payload : IProduct) (db : Store) :
  (forall i, seller payload = Some i -> sellers db !! i = None) ->
  (strip (seller payload) ≫= fun i => sellers db !! i) = None.
Proof.
  intros H. destruct (strip (seller payload)) as [i|] eqn:Hi; [|reflexivity].
  apply strip_Some in Hi as [Hi _]. simpl. auto.
Qed.

(** C5.  A create call whose payload passes the required-field check and
    whose seller id resolves to no seller commits nothing, whatever the
    engine does; when the session opens and the lookup itself does not
    throw, the caller gets the status-400 error whose cause is
    "Invalid seller ID provided". *)
Theorem create_unresolved_seller
    (f : Faults) (newId : ObjectId) (payload : IProduct) (userId : ObjectId)
    (db : Store) :
  hasRequiredFields (removeEmptyFields payload) = true ->
  (forall i, seller payload = Some i -> sellers db !! i = None) ->
  (exists e, create f newId payload userId db = (Err e, db))
  /\ (f ObjectIdCast = None -> f StartSession = None ->
      f SellerFindById = None ->
      create f newId payload userId db =
        (Err (CustomError 400
                "Product create failed: Invalid seller ID provided"), db)).
Proof.
  intros Hv Hs. apply unresolved_after_strip in Hs. split.
  - destruct (create_cases f newId payload userId db Hv)
      as [(p & sel & _ & Hsel & _) | (e & Hc & _)].
    + rewrite Hs in Hsel. discriminate.
    + eauto.
  - intros. apply create_invalid_seller_error; assumption.
Qed.

Lemma create_unresolved_seller_witness :
  create no_faults "P1" widget "U1" (mkStore ∅ [] ∅) =
    (Err (CustomError 400 "Product create failed: Invalid seller ID provided"),
     mkStore ∅ [] ∅).
Proof.
  apply (create_unresolved_seller no_faults "P1" widget "U1" (mkStore ∅ [] ∅)).
  - reflexivity.
  - intros i _. reflexivity.
  - reflexivity.
  - reflexivity.
  - reflexivity.
Defined.

(** ** [create]: the required-field check *)

Lemma create_rejects_payload f newId payload userId db :
  hasRequiredFields (removeEmptyFields payload) = false ->
  create f newId payload userId db = (Err missing_fields_error, db).
Proof. intros Hv. unfold_ops. rewrite Hv. reflexivity. Qed.

Lemma create_proceeds f newId payload userId db :
  hasRequiredFields (removeEmptyFields payload) = true ->
  create f newId payload userId db =
    run (create_transaction f newId (removeEmptyFields payload) userId) db.
Proof. intros Hv. unfold create, create_M. rewrite Hv. reflexivity. Qed.

Lemma truthy_string_strip (o : option string) :
  truthy_string (strip o) = false <-> strip o = None.
Proof.
  unfold strip. destruct o as [s|]; simpl; [|tauto].
  destruct (decide (s = "")) as [->|Hne]; simpl; [tauto|].
  rewrite bool_decide_eq_false_2 by assumption. simpl.
  split; discriminate.
Qed.

Lemma truthy_number_false (o : option Z) :
  truthy_number o = false <-> o = None \/ o = Some 0.
Proof.
  destruct o as [n|]; simpl; [|tauto].
  rewrite negb_false_iff, Z.eqb_eq. split.
  - intros ->. auto.
  - intros [?|[= ->]]; [discriminate|reflexivity].
Qed.

Lemma hasRequiredFields_false (payload : IProduct) :
  hasRequiredFields (removeEmptyFields payload) = false <->
  strip (name payload) = None \/ price payload = None \/ price payload = Some 0
  \/ strip (seller payload) = None.
Proof.
  unfold hasRequiredFields, removeEmptyFields. simpl.
  rewrite !andb_false_iff, !truthy_string_strip, truthy_number_false. tauto.
Qed.

Lemma not_all_present (payload : IProduct) :
  ~ all_present (removeEmptyFields payload) <->
  strip (name payload) = None \/ price payload = None
  \/ strip (seller payload) = None.
Proof.
  unfold all_present, removeEmptyFields. simpl.
  rewrite <- !not_eq_None_Some.
  destruct (strip (name payload)), (price payload), (strip (seller payload));
    split; intros H; try tauto; try (exfalso; apply H; repeat split; discriminate);
    destruct H as [?|[?|?]]; discriminate.
Qed.

(** C7, as stated, fails: a payload with every required field present and
    price 0 is turned down by the required-field check, which tests
    truthiness and not presence. *)
Lemma zero_price_refutes_missing_iff_absent :
  ~ missing_iff_absent no_faults "P1" free_widget "U1" db0.
Proof.
  unfold missing_iff_absent. intros [H _].
  apply H; [reflexivity|].
  unfold all_present. simpl. eauto.
Qed.

(** C7 (amended).  The call fails with the missing-field error exactly when,
    after stripping empty strings, one of name, price, seller is absent or
    the price is 0; otherwise it goes on to the transactional steps. *)
Theorem create_missing_fields_iff
    (f : Faults) (newId : ObjectId) (payload : IProduct) (userId : ObjectId)
    (db : Store) :
  ((create f newId payload userId db).1 = Err missing_fields_error <->
   (~ all_present (removeEmptyFields payload) \/ price payload = Some 0))
  /\ ((create f newId payload userId db).1 <> Err missing_fields_error ->
      create f newId payload userId db =
        run (create_transaction f newId (removeEmptyFields payload) userId) db).
Proof.
  rewrite not_all_present.
  destruct (hasRequiredFields (removeEmptyFields payload)) eqn:Hv.
  - assert (Hne : (create f newId payload userId db).1 <> Err missing_fields_error).
    { destruct (create_cases f newId payload userId db Hv)
        as [(p & sel & _ & _ & _ & Hc) | (e & Hc & _ & m & [-> | ->])];
        rewrite Hc; simpl; discriminate. }
    split; [split|].
    + intros H. contradiction.
    + intros H. exfalso.
      assert (Hf : hasRequiredFields (removeEmptyFields payload) = false)
        by (apply hasRequiredFields_false; tauto).
      congruence.
    + intros _. apply create_proceeds. exact Hv.
  - rewrite (create_rejects_payload _ _ _ _ _ Hv). simpl.
    apply hasRequiredFields_false in Hv.
    split; [split|].
    + intros _. tauto.
    + reflexivity.
    + intros H. contradiction.
Qed.

Lemma create_missing_fields_iff_witness :
  (create no_faults "P1" free_widget "U1" db0).1 = Err missing_fields_error
  /\ create no_faults "P1" widget "U1" db0 =
       run (create_transaction no_faults "P1" (removeEmptyFields widget) "U1") db0.
Proof.
  split.
  - apply (create_missing_fields_iff no_faults "P1" free_widget "U1" db0).
    right. reflexivity.
  - apply (create_missing_fields_iff no_faults "P1" widget "U1" db0).
    vm_compute. discriminate.
Defined.

(** ** Stock levels along a run *)

Lemma stock_nonneg_insert (db : Store) (id : ObjectId) (p : Product)
    (ps : list Purchase) :
  stock_nonneg db -> 0 <= p_stock p ->
  stock_nonneg (mkStore (<[id := p]> (products db)) ps (sellers db)).
Proof.
  intros Hdb Hp j q. simpl. rewrite lookup_insert.
  case_decide.
  - intros [= <-]. exact Hp.
  - apply Hdb.
Qed.

Lemma exec_keeps_stock_nonneg (op : Op) (db : Store) :
  stock_nonneg db -> op_keeps_stock op db -> stock_nonneg (exec op db).
Proof.
  intros Hdb Hop. destruct op as [f newId payload userId | f id payload userId];
    simpl in *.
  - destruct (hasRequiredFields (removeEmptyFields payload)) eqn:Hv.
    + destruct (create_cases f newId payload userId db Hv)
        as [(p & sel & Hp & _ & _ & Hc) | (e & Hc & _)]; rewrite Hc; simpl.
      * apply stock_nonneg_insert; [exact Hdb|].
        apply Product_new_fields in Hp as (_ & _ & _ & _ & _ & ->).
        exact Hop.
      * exact Hdb.
    + rewrite (create_rejects_payload _ _ _ _ _ Hv). exact Hdb.
  - destruct (addToStock_cases f id payload userId db)
      as [(p & sel & Hp & _ & Hc) | (e & Hc & _)]; rewrite Hc; simpl.
    + apply stock_nonneg_insert; [exact Hdb|]. simpl. auto.
    + exact Hdb.
Qed.

Lemma db1_stock_nonneg : stock_nonneg db1.
Proof.
  intros id p. unfold db1. simpl. rewrite lookup_singleton_Some.
  intros [_ <-]. simpl. lia.
Qed.

(** C6, as stated, fails: a delta below minus the current stock is accepted
    and stored (stock 5, delta -8, stored stock -3). *)
Lemma addToStock_can_drive_stock_negative :
  stock_nonneg db1
  /\ ~ stock_nonneg
        (exec_all [OpAddStock no_faults "P1" (mkStockPayload "S1" (-8)) "U1"] db1).
Proof.
  split.
  - exact db1_stock_nonneg.
  - intros H.
    specialize (H "P1" (mkProduct "P1" "Widget" 10 (-3) "S1" None None "U1")).
    simpl in H. specialize (H eq_refl). lia.
Qed.

(** C6 (amended).  Starting from a store in which no stock is negative, no
    stock is negative after a sequence of create and add-to-stock calls,
    provided every created product has a non-negative stock and every delta
    [d] applied to a product of current stock [s] has [0 <= s + d]. *)
Theorem stock_nonneg_preserved (ops : list Op) (db : Store) :
  stock_nonneg db -> ops_keep_stock ops db -> stock_nonneg (exec_all ops db).
Proof.
  revert db. induction ops as [|op ops IH]; intros db Hdb Hops; simpl in *.
  - exact Hdb.
  - destruct Hops as [Hop Hrest].
    apply IH; [|exact Hrest].
    apply exec_keeps_stock_nonneg; assumption.
Qed.

Lemma stock_nonneg_preserved_witness :
  stock_nonneg
    (exec_all [OpCreate no_faults "P2" widget "U1";
               OpAddStock no_faults "P1" (mkStockPayload "S1" (-2)) "U1"] db1).
Proof.
  apply (stock_nonneg_preserved
           [OpCreate no_faults "P2" widget "U1";
            OpAddStock no_faults "P1" (mkStockPayload "S1" (-2)) "U1"] db1).
  - exact db1_stock_nonneg.
  - simpl. split; [lia|]. split; [|exact I].
    intros p Hp. vm_compute in Hp. injection Hp as <-. simpl. lia.
Defined.

(** ** [bulkDelete] *)

Lemma new_ObjectId_eq (f : Faults) (x : string) (w : World) :
  new_ObjectId f x w =
    match f ObjectIdCast with
    | Some m => (Err (Thrown m), w)
    | None => (Ok x, w)
    end.
Proof.
  unfold new_ObjectId, bind, may_throw, ret, throw.
  destruct (f ObjectIdCast); reflexivity.
Qed.

Lemma mapM_new_ObjectId (f : Faults) (l : list string) (w : World) :
  mapM (new_ObjectId f) l w = (Ok l, w)
  \/ exists m, f ObjectIdCast = Some m
               /\ mapM (new_ObjectId f) l w = (Err (Thrown m), w).
Proof.
  induction l as [|x l IH]; simpl.
  - left. reflexivity.
  - destruct (f ObjectIdCast) as [m|] eqn:Hf.
    + right. exists m. split; [reflexivity|].
      unfold bind at 1. rewrite new_ObjectId_eq, Hf. reflexivity.
    + destruct IH as [IH | (m & Hm & IH)]; [|discriminate].
      left. unfold bind at 1. rewrite new_ObjectId_eq, Hf.
      unfold bind at 1. rewrite IH. reflexivity.
Qed.

Lemma bulkDelete_cases (f : Faults) (payload : list string) (db : Store) :
  (exists n,
     bulkDelete f payload db =
       (Ok n,
        mkStore (filter (fun kv => kv.1 ∉ payload) (products db))
                (purchases db) (sellers db)))
  \/ (exists m, bulkDelete f payload db = (Err (Thrown m), db)
               /\ exists s, f s = Some m).
Proof.
  unfold bulkDelete, run, bulkDelete_M, Product_deleteMany, bind, may_throw,
    ret, throw.
  destruct (mapM_new_ObjectId f payload (mkWorld db db)) as [H | (m & Hm & H)];
    rewrite H.
  - destruct (f ProductDeleteMany) as [m|] eqn:Hf; simpl.
    + right. exists m. split; [reflexivity|].
      exists ProductDeleteMany. exact Hf.
    + left. eauto.
  - right. exists m. split; [reflexivity|].
    exists ObjectIdCast. exact Hm.
Qed.

(** C8.  A bulk delete, successful or not, leaves the purchase ledger and
    the sellers exactly as they were; among the products, those whose id is
    not in the list are untouched and no product is added or altered. *)
Theorem bulkDelete_keeps_purchases
    (f : Faults) (payload : list string) (db : Store) :
  let db' := (bulkDelete f payload db).2 in
  purchases db' = purchases db
  /\ sellers db' = sellers db
  /\ (forall id, id ∉ payload -> products db' !! id = products db !! id)
  /\ (forall id p, products db' !! id = Some p -> products db !! id = Some p).
Proof.
  destruct (bulkDelete_cases f payload db) as [[n H] | (m & H & _)];
    rewrite H; simpl; repeat split; auto.
  - intros id Hid. apply option_eq. intros p.
    rewrite map_lookup_filter_Some. simpl. tauto.
  - intros id p. rewrite map_lookup_filter_Some. tauto.
Qed.

Lemma bulkDelete_keeps_purchases_witness :
  purchases (bulkDelete no_faults ["P1"] db1).2 = purchases db1
  /\ products (bulkDelete no_faults ["P1"] db1).2 !! "P1" = None.
Proof.
  split.
  - apply (bulkDelete_keeps_purchases no_faults ["P1"] db1).
  - vm_compute. reflexivity.
Defined.

(** Without an engine fault the listed products are gone. *)
Lemma bulkDelete_removes (payload : list string) (db : Store) (id : ObjectId) :
  id ∈ payload -> products (bulkDelete no_faults payload db).2 !! id = None.
Proof.
  intros Hid.
  destruct (bulkDelete_cases no_faults payload db) as [[n H] | (m & _ & s & Hs)].
  - rewrite H. simpl. apply map_lookup_filter_None_2.
    right. intros p _ Hn. simpl in Hn. contradiction.
  - discriminate.
Qed.

(** ** [addToStock] and the acting user *)

Lemma read_scoped_to_user f id userId db p :
  (read f id userId db).1 = Ok (Some p) -> p_user p = userId.
Proof.
  unfold_ops. simpl.
  destruct (products db !! id) as [q|] eqn:Hq; simpl; [|discriminate].
  destruct (f ObjectIdCast); simpl; [discriminate|].
  destruct (f ProductFindOne); simpl; [discriminate|].
  rewrite Hq. case_decide; [|discriminate].
  intros [= <-]. assumption.
Qed.

(** C10.  The acting user plays no part in [addToStock]: two calls that
    differ only in the user id end the same way (same returned product or
    same error) and leave the same products and sellers; the ledgers differ
    only in the user recorded on the appended entry.  The single-product
    read, by contrast, hands out a product only to its owner. *)
Theorem addToStock_ignores_acting_user
    (f : Faults) (id : ObjectId) (payload : StockPayload) (u1 u2 : ObjectId)
    (db : Store) :
  let r1 := addToStock f id payload u1 db in
  let r2 := addToStock f id payload u2 db in
  r1.1 = r2.1
  /\ products r1.2 = products r2.2
  /\ sellers r1.2 = sellers r2.2
  /\ (exists new : list Purchase,
        purchases r1.2 = (purchases db ++ new)%list
        /\ purchases r2.2 = (purchases db ++ (with_user u2 <$> new))%list
        /\ Forall (fun e => pu_user e = u1) new)
  /\ (forall u p, (read f id u db).1 = Ok (Some p) -> p_user p = u).
Proof.
  intros r1 r2. subst r1 r2.
  assert (Hnil : forall u : string, exists new : list Purchase,
             purchases db = (purchases db ++ new)%list
             /\ purchases db = (purchases db ++ (with_user u2 <$> new))%list
             /\ Forall (fun e => pu_user e = u) new).
  { intros u. exists []. simpl. rewrite app_nil_r.
    split; [reflexivity|split; [reflexivity|constructor]]. }
  split; [|split; [|split; [|split]]]; [| | | |intros u p; apply read_scoped_to_user].
  all: unfold_ops; simpl.
  all: destruct (f StartSession); simpl; [first [reflexivity | apply Hnil]|].
  all: destruct (f SellerFindById); simpl; [first [reflexivity | apply Hnil]|].
  all: destruct (sellers db !! sp_seller payload) as [sel|]; simpl;
    [|first [reflexivity | apply Hnil]].
  all: destruct (f ProductFindByIdAndUpdate); simpl;
    [first [reflexivity | apply Hnil]|].
  all: destruct (products db !! id) as [p|]; simpl;
    [|first [reflexivity | apply Hnil]].
  all: destruct (f PurchaseCreate); simpl; [first [reflexivity | apply Hnil]|].
  all: destruct (f CommitTransaction); simpl;
    [first [reflexivity | apply Hnil]|].
  all: try reflexivity.
  exists [stock_purchase_entry u1 sel p payload]. simpl.
  split; [reflexivity|split; [reflexivity|]].
  constructor; [reflexivity|constructor].
Qed.

Lemma addToStock_ignores_acting_user_witness :
  (addToStock no_faults "P1" (mkStockPayload "S1" 3) "U1" db1).1 =
  (addToStock no_faults "P1" (mkStockPayload "S1" 3) "U2" db1).1
  /\ (read no_faults "P1" "U1" db1).1 = Ok (Some widget_product)
  /\ (read no_faults "P1" "U2" db1).1 = Ok None
  /\ p_user widget_product = "U1".
Proof.
  split; [|split; [|split]].
  - apply (addToStock_ignores_acting_user no_faults "P1"
             (mkStockPayload "S1" 3) "U1" "U2" db1).
  - reflexivity.
  - reflexivity.
  - apply (addToStock_ignores_acting_user no_faults "P1"
             (mkStockPayload "S1" 3) "U1" "U2" db1).
    reflexivity.
Defined.

(** ** Two calls one after the other *)

(** Run one after the other on a healthy engine, two calls add both deltas
    and append two entries.  (What the engine does when the two calls
    overlap in time is outside this model.) *)
Lemma addToStock_twice_in_sequence
    (id : ObjectId) (pl1 pl2 : StockPayload) (u1 u2 : ObjectId) (db : Store)
    (p : Product) (sel1 sel2 : Seller) :
  products db !! id = Some p ->
  sellers db !! sp_seller pl1 = Some sel1 ->
  sellers db !! sp_seller pl2 = Some sel2 ->
  let db' := exec_all [OpAddStock no_faults id pl1 u1;
                       OpAddStock no_faults id pl2 u2] db in
  p_stock <$> products db' !! id = Some (p_stock p + sp_stock pl1 + sp_stock pl2)
  /\ purchases db' =
       (purchases db ++ [stock_purchase_entry u1 sel1 p pl1;
                         stock_purchase_entry u2 sel2
                           (inc_stock p (sp_stock pl1)) pl2])%list.
Proof.
  intros Hp Hs1 Hs2. simpl.
  destruct (addToStock_cases no_faults id pl1 u1 db)
    as [(p1 & s1 & Hp1 & Hs1' & Hc1) | (e & _ & [(s & m & Hm) | [Hn | Hn]])];
    [|discriminate|congruence|congruence].
  rewrite Hc1. simpl.
  assert (p1 = p) as -> by congruence.
  assert (s1 = sel1) as -> by congruence.
  set (db1' := mkStore _ _ _).
  destruct (addToStock_cases no_faults id pl2 u2 db1')
    as [(p2 & s2 & Hp2 & Hs2' & Hc2) | (e & _ & [(s & m & Hm) | [Hn | Hn]])].
  - rewrite Hc2. subst db1'. simpl in *.
    rewrite lookup_insert_eq in Hp2. injection Hp2 as <-.
    assert (s2 = sel2) as -> by congruence.
    rewrite lookup_insert_eq. simpl. rewrite <- app_assoc. auto.
  - discriminate.
  - subst db1'. simpl in Hn. congruence.
  - subst db1'. simpl in Hn. rewrite lookup_insert_eq in Hn. discriminate.
Qed.

(** * Further properties of the service *)

(** ** What a created product looks like *)

Lemma Product_new_optional (newId u : ObjectId) (payload : IProduct) (p : Product) :
  Product_new newId (set_user payload u) = Some p ->
  p_category p = category payload /\ p_brand p = brand payload.
Proof.
  unfold Product_new, set_user. simpl.
  destruct (name payload), (price payload), (seller payload); try discriminate.
  intros [= <-]. simpl. auto.
Qed.

Lemma strip_not_empty (o : option string) : strip o <> Some "".
Proof. intros H. apply strip_Some in H as [_ H]. contradiction. Qed.

Lemma create_ok_inv f newId payload userId db ps db' :
  create f newId payload userId db = (Ok ps, db') ->
  hasRequiredFields (removeEmptyFields payload) = true
  /\ exists p sel,
       ps = [p]
       /\ Product_new newId (set_user (removeEmptyFields payload) userId) = Some p
       /\ (strip (seller payload) ≫= fun i => sellers db !! i) = Some sel
       /\ products db !! newId = None
       /\ db' = mkStore (<[newId := p]> (products db))
                        (purchases db ++ [create_purchase_entry userId sel p])
                        (sellers db).
Proof.
  intros H.
  destruct (hasRequiredFields (removeEmptyFields payload)) eqn:Hv.
  - split; [reflexivity|].
    destruct (create_cases f newId payload userId db Hv)
      as [(p & sel & Hp & Hs & Hn & Hc) | (e & Hc & _)];
      rewrite Hc in H; [|discriminate].
    injection H as <- <-. exists p, sel. auto.
  - rewrite (create_rejects_payload _ _ _ _ _ Hv) in H. discriminate.
Qed.

(** X1.  The product a successful [create] hands back is stored under the
    generated id and belongs to the acting user, whatever [user] the payload
    carried. *)
Theorem create_owner_is_acting_user
    (f : Faults) (newId : ObjectId) (payload : IProduct) (userId : ObjectId)
    (db db' : Store) (p : Product) :
  create f newId payload userId db = (Ok [p], db') ->
  p_user p = userId /\ p_id p = newId /\ products db' !! newId = Some p.
Proof.
  intros H. apply create_ok_inv in H as (_ & q & sel & Hq & Hp & _ & _ & ->).
  injection Hq as <-.
  apply Product_new_fields in Hp as (Hid & Hu & _).
  simpl. rewrite lookup_insert_eq. auto.
Qed.

Lemma create_owner_is_acting_user_witness :
  p_user widget_product = "U1" /\ p_id widget_product = "P1"
  /\ products db1 !! "P1" = Some widget_product.
Proof.
  apply (create_owner_is_acting_user no_faults "P1"
           (mkIProduct (Some "Widget") (Some 10) (Some "S1") (Some 5) None None
                       (Some "U7")) "U1" db0 db1 widget_product).
  vm_compute. reflexivity.
Defined.

(** X2.  A created product has a non-empty name, a price other than 0, a seller
    that exists in the store, and no empty string as category or brand. *)
Theorem create_product_well_formed
    (f : Faults) (newId : ObjectId) (payload : IProduct) (userId : ObjectId)
    (db db' : Store) (p : Product) :
  create f newId payload userId db = (Ok [p], db') ->
  p_name p <> "" /\ p_price p <> 0
  /\ is_Some (sellers db' !! p_seller p)
  /\ p_category p <> Some "" /\ p_brand p <> Some "".
Proof.
  intros H. apply create_ok_inv in H as (Hv & q & sel & Hq & Hp & Hs & _ & ->).
  injection Hq as <-.
  apply hasRequiredFields_true in Hv as (n & pr & s & Hn & Hpr & Hse & ? & ? & ?).
  pose proof (Product_new_optional _ _ _ _ Hp) as [Hc Hb].
  apply Product_new_fields in Hp as (_ & _ & Hn' & Hpr' & Hse' & _).
  rewrite Hn in Hn'. rewrite Hpr in Hpr'. rewrite Hse in Hse'.
  injection Hn' as <-. injection Hpr' as <-. injection Hse' as <-.
  simpl in Hse. rewrite Hse in Hs. simpl in Hs.
  rewrite Hc, Hb. simpl.
  split; [assumption|]. split; [assumption|].
  split; [rewrite Hs; eauto|].
  split; apply strip_not_empty.
Qed.

Lemma create_product_well_formed_witness :
  p_name widget_product <> "" /\ p_price widget_product <> 0
  /\ is_Some (sellers db1 !! p_seller widget_product)
  /\ p_category widget_product <> Some "" /\ p_brand widget_product <> Some "".
Proof.
  apply (create_product_well_formed no_faults "P1"
           (mkIProduct (Some "Widget") (Some 10) (Some "S1") (Some 5) (Some "")
                       (Some "") None) "U1" db0 db1 widget_product).
  vm_compute. reflexivity.
Defined.

(** ** The errors a caller can see *)





(** ** [addToStock]: the seller *)

(** X5.  The seller is looked up before the product: when [payload.seller] names
    no seller the call fails with the invalid-seller error and commits
    nothing, whether or not the product exists. *)
Theorem addToStock_seller_checked_first
    (f : Faults) (id : ObjectId) (payload : StockPayload) (userId : ObjectId)
    (db : Store) :
  f StartSession = None -> f SellerFindById = None ->
  sellers db !! sp_seller payload = None ->
  addToStock f id payload userId db =
    (Err (CustomError 400 "Stock update failed: Invalid seller ID provided"), db).
Proof.
  intros H1 H2 Hs. unfold_ops. simpl.
  rewrite H1; simpl. rewrite H2; simpl. rewrite Hs; simpl. reflexivity.
Qed.

Lemma addToStock_seller_checked_first_witness :
  addToStock no_faults "P9" (mkStockPayload "S9" 3) "U1" db1 =
    (Err (CustomError 400 "Stock update failed: Invalid seller ID provided"), db1).
Proof.
  apply (addToStock_seller_checked_first no_faults "P9"
           (mkStockPayload "S9" 3) "U1" db1); reflexivity.
Defined.

(** X6.  The entry appended by a successful [addToStock] names the product's own
    seller as [seller] but takes [sellerName] from the seller given in the
    payload; nothing makes the two agree. *)
Theorem addToStock_entry_seller
    (f : Faults) (id : ObjectId) (payload : StockPayload) (userId : ObjectId)
    (db db' : Store) (p : Product) (sel : Seller) :
  addToStock f id payload userId db = (Ok p, db') ->
  sellers db !! sp_seller payload = Some sel ->
  exists e,
    last (purchases db') = Some e
    /\ pu_seller e = p_seller p
    /\ pu_sellerName e = s_name sel
    /\ pu_productName e = p_name p.
Proof.
  intros H Hs.
  destruct (addToStock_cases f id payload userId db)
    as [(p0 & sel0 & Hp0 & Hs0 & Hc) | (e & Hc & _)]; rewrite Hc in H;
    [|discriminate].
  injection H as <- <-. rewrite Hs in Hs0. injection Hs0 as <-.
  exists (stock_purchase_entry userId sel p0 payload). simpl.
  rewrite last_snoc. auto.
Qed.

Lemma addToStock_entry_seller_witness :
  exists e,
    last (purchases (addToStock no_faults "P1" (mkStockPayload "S2" 3) "U1" db2).2)
      = Some e
    /\ pu_seller e = "S1"
    /\ pu_sellerName e = "Globex"
    /\ pu_productName e = "Widget".
Proof.
  apply (addToStock_entry_seller no_faults "P1" (mkStockPayload "S2" 3) "U1"
           db2 _ widget_product (mkSeller "Globex")).
  - vm_compute. reflexivity.
  - reflexivity.
Defined.

(** ** Reading back *)

Lemma read_found (id userId : ObjectId) (db : Store) (p : Product) :
  products db !! id = Some p ->
  read no_faults id userId db =
    (Ok (if decide (p_user p = userId) then Some p else None), db).
Proof.
  intros Hp. unfold_ops. simpl. rewrite Hp. simpl. rewrite Hp.
  destruct db. reflexivity.
Qed.

(** X7.  [read] never changes the store, and a product it hands out is the one
    stored under the id and belongs to the caller. *)
Theorem read_sound
    (f : Faults) (id userId : ObjectId) (db : Store) :
  (read f id userId db).2 = db
  /\ (forall p, (read f id userId db).1 = Ok (Some p) ->
               products db !! id = Some p /\ p_user p = userId).
Proof.
  unfold_ops. simpl.
  destruct (products db !! id) as [q|] eqn:Hq; simpl;
    [|split; [reflexivity|discriminate]].
  destruct (f ObjectIdCast); simpl; [split; [reflexivity|discriminate]|].
  destruct (f ProductFindOne); simpl; [split; [reflexivity|discriminate]|].
  split; [reflexivity|]. rewrite Hq.
  intros p. case_decide; [|discriminate].
  intros [= <-]. auto.
Qed.

Lemma read_sound_witness :
  products db1 !! "P1" = Some widget_product /\ p_user widget_product = "U1".
Proof.
  apply (read_sound no_faults "P1" "U1" db1). reflexivity.
Defined.

(** X8.  After a successful [create] the acting user reads the created product
    back under the generated id; any other user gets no product. *)
Theorem create_then_read
    (f : Faults) (newId : ObjectId) (payload : IProduct) (userId other : ObjectId)
    (db db' : Store) (p : Product) :
  create f newId payload userId db = (Ok [p], db') ->
  other <> userId ->
  read no_faults newId userId db' = (Ok (Some p), db')
  /\ read no_faults newId other db' = (Ok None, db').
Proof.
  intros H Hne.
  destruct (create_ok_inv _ _ _ _ _ _ _ H) as (_ & q & sel & Hq & Hp & _ & _ & Hdb).
  injection Hq as <-.
  apply Product_new_fields in Hp as (_ & Hu & _).
  assert (Hl : products db' !! newId = Some p).
  { rewrite Hdb. simpl. apply lookup_insert_eq. }
  rewrite !(read_found _ _ _ _ Hl), Hu.
  rewrite decide_True by reflexivity.
  rewrite decide_False by congruence. auto.
Qed.

Lemma create_then_read_witness :
  read no_faults "P1" "U1" db1 = (Ok (Some widget_product), db1)
  /\ read no_faults "P1" "U2" db1 = (Ok None, db1).
Proof.
  apply (create_then_read no_faults "P1" widget "U1" "U2" db0 db1 widget_product).
  - vm_compute. reflexivity.
  - discriminate.
Defined.

(** X9.  The product returned by a successful [addToStock] is not the stored
    one: the owner who reads the product afterwards sees the returned
    document with the delta added to its stock. *)
Theorem addToStock_then_read
    (f : Faults) (id : ObjectId) (payload : StockPayload) (userId : ObjectId)
    (db db' : Store) (p : Product) :
  addToStock f id payload userId db = (Ok p, db') ->
  read no_faults id (p_user p) db' =
    (Ok (Some (inc_stock p (sp_stock payload))), db').
Proof.
  intros H.
  destruct (addToStock_cases f id payload userId db)
    as [(p0 & sel0 & Hp0 & Hs0 & Hc) | (e & Hc & _)]; rewrite Hc in H;
    [|discriminate].
  injection H as <- <-.
  rewrite (read_found _ _ _ (inc_stock p0 (sp_stock payload)))
    by (simpl; apply lookup_insert_eq).
  simpl. rewrite decide_True by reflexivity. reflexivity.
Qed.

Lemma addToStock_then_read_witness :
  read no_faults "P1" "U1"
       (addToStock no_faults "P1" (mkStockPayload "S1" 3) "U2" db1).2 =
    (Ok (Some (mkProduct "P1" "Widget" 10 8 "S1" None None "U1")),
     (addToStock no_faults "P1" (mkStockPayload "S1" 3) "U2" db1).2).
Proof.
  apply (addToStock_then_read no_faults "P1" (mkStockPayload "S1" 3) "U2" db1
           _ widget_product).
  vm_compute. reflexivity.
Defined.

(** ** [bulkDelete]: ids that name no product *)

Lemma Store_eta (db : Store) :
  mkStore (products db) (purchases db) (sellers db) = db.
Proof. destruct db. reflexivity. Qed.

Lemma bulkDelete_sellers (f : Faults) (payload : list string) (db : Store) :
  sellers (bulkDelete f payload db).2 = sellers db.
Proof.
  destruct (bulkDelete_cases f payload db) as [[n H] | (m & H & _)];
    rewrite H; reflexivity.
Qed.

Lemma bulkDelete_absent (f : Faults) (payload : list string) (db : Store) :
  (forall id, id ∈ payload -> products db !! id = None) ->
  (bulkDelete f payload db).2 = db
  /\ ((forall s, f s = None) -> (bulkDelete f payload db).1 = Ok 0%nat).
Proof.
  intros Habs.
  assert (Hid : filter (fun kv : string * Product => kv.1 ∉ payload)
                       (products db) = products db).
  { apply map_filter_id. intros i x Hx Hin. simpl in Hin.
    rewrite (Habs i Hin) in Hx. discriminate. }
  unfold bulkDelete, run, bulkDelete_M, Product_deleteMany, bind, may_throw,
    ret, throw.
  destruct (mapM_new_ObjectId f payload (mkWorld db db)) as [H | (m & Hm & H)];
    rewrite H.
  - destruct (f ProductDeleteMany) as [m|] eqn:Hf; simpl.
    + split; [reflexivity|]. intros Hn. rewrite Hn in Hf. discriminate.
    + rewrite Hid, Store_eta, Nat.sub_diag. auto.
  - simpl. split; [reflexivity|]. intros Hn. rewrite Hn in Hm. discriminate.
Qed.

(** X10.  Ids that name no product are ignored: the store is left as it was,
    and on a healthy engine the call succeeds with a deleted count of 0.
    The empty list is the special case with no id at all. *)
Theorem bulkDelete_unknown_ids
    (f : Faults) (payload : list string) (db : Store) :
  (forall id, id ∈ payload -> products db !! id = None) ->
  (bulkDelete f payload db).2 = db
  /\ ((forall s, f s = None) -> (bulkDelete f payload db).1 = Ok 0%nat).
Proof. apply bulkDelete_absent. Qed.

Lemma bulkDelete_unknown_ids_witness :
  (bulkDelete no_faults ["P8"; "P9"] db1).2 = db1
  /\ (bulkDelete no_faults [] db1).1 = Ok 0%nat.
Proof.
  split.
  - apply (bulkDelete_unknown_ids no_faults ["P8"; "P9"] db1).
    intros id Hid. vm_compute in Hid.
    repeat (apply elem_of_cons in Hid as [-> | Hid]; [reflexivity|]).
    apply elem_of_nil in Hid. contradiction.
  - apply (bulkDelete_unknown_ids no_faults [] db1).
    + intros id Hid. apply elem_of_nil in Hid. contradiction.
    + reflexivity.
Defined.

(** X11.  Deleting the same ids a second time changes nothing and reports a
    deleted count of 0. *)
Theorem bulkDelete_twice (payload : list string) (db : Store) :
  let db' := (bulkDelete no_faults payload db).2 in
  bulkDelete no_faults payload db' = (Ok 0%nat, db').
Proof.
  intros db'.
  destruct (bulkDelete_absent no_faults payload db') as [H2 H1].
  { intros id Hid. apply bulkDelete_removes. exact Hid. }
  specialize (H1 (fun _ => eq_refl)).
  destruct (bulkDelete no_faults payload db'). simpl in *. congruence.
Qed.

(** X12.  Stock cannot be added to a deleted product: after a bulk delete that
    listed the id, [addToStock] fails with the product-not-found error
    (status 400) and changes nothing. *)
Theorem bulkDelete_then_addToStock
    (ids : list string) (id : ObjectId) (payload : StockPayload)
    (userId : ObjectId) (db : Store) (sel : Seller) :
  id ∈ ids ->
  sellers db !! sp_seller payload = Some sel ->
  let db' := (bulkDelete no_faults ids db).2 in
  addToStock no_faults id payload userId db' =
    (Err (CustomError 400 "Stock update failed: Product not found"), db').
Proof.
  intros Hid Hs db'.
  apply (addToStock_not_found_rewrapped no_faults id payload userId db' sel);
    try reflexivity.
  - unfold db'. rewrite bulkDelete_sellers. exact Hs.
  - apply bulkDelete_removes. exact Hid.
Qed.

Lemma bulkDelete_then_addToStock_witness :
  addToStock no_faults "P1" (mkStockPayload "S1" 3) "U1"
             (bulkDelete no_faults ["P1"] db1).2 =
    (Err (CustomError 400 "Stock update failed: Product not found"),
     (bulkDelete no_faults ["P1"] db1).2).
Proof.
  apply (bulkDelete_then_addToStock ["P1"] "P1" (mkStockPayload "S1" 3) "U1"
           db1 (mkSeller "Acme")).
  - apply list_elem_of_here.
  - reflexivity.
Defined.

(** ** What no sequence of calls does *)

Lemma countTotalProduct_store (f : Faults) (fault : option string)
    (userId : ObjectId) (db : Store) :
  (countTotalProduct f fault userId db).2 = db.
Proof.
  unfold countTotalProduct, run, countTotalProduct_M,
    Product_aggregate_totalQuantity, bind, throw.
  rewrite new_ObjectId_eq.
  destruct (f ObjectIdCast); [reflexivity|].
  destruct fault; reflexivity.
Qed.

Lemma read_store (f : Faults) (id userId : ObjectId) (db : Store) :
  (read f id userId db).2 = db.
Proof.
  unfold_ops. simpl.
  destruct (products db !! id); simpl; [|reflexivity].
  destruct (f ObjectIdCast); simpl; [reflexivity|].
  destruct (f ProductFindOne); reflexivity.
Qed.

(** One call either leaves the store alone, or writes one product and
    appends one exact ledger entry, or only removes products. *)
Lemma serve_cases (c : Call) (db : Store) :
  serve c db = db
  \/ (exists id p e,
        serve c db = mkStore (<[id := p]> (products db)) (purchases db ++ [e])
                             (sellers db)
        /\ pu_totalPrice e = pu_quantity e * pu_unitPrice e)
  \/ (exists ids : list string,
        serve c db = mkStore (filter (fun kv => kv.1 ∉ ids) (products db))
                             (purchases db) (sellers db)).
Proof.
  destruct c as [[f newId payload userId | f id payload userId]
                | f payload | f id userId | f fault userId]; simpl.
  - destruct (hasRequiredFields (removeEmptyFields payload)) eqn:Hv.
    + destruct (create_cases f newId payload userId db Hv)
        as [(p & sel & _ & _ & _ & Hc) | (e & Hc & _)]; rewrite Hc; simpl.
      * right. left. exists newId, p, (create_purchase_entry userId sel p).
        split; reflexivity.
      * left. reflexivity.
    + rewrite (create_rejects_payload _ _ _ _ _ Hv). left. reflexivity.
  - destruct (addToStock_cases f id payload userId db)
      as [(p & sel & _ & _ & Hc) | (e & Hc & _)]; rewrite Hc; simpl.
    + right. left.
      exists id, (inc_stock p (sp_stock payload)),
             (stock_purchase_entry userId sel p payload).
      split; reflexivity.
    + left. reflexivity.
  - destruct (bulkDelete_cases f payload db) as [[n H] | (m & H & _)];
      rewrite H; simpl.
    + right. right. exists payload. reflexivity.
    + left. reflexivity.
  - left. apply read_store.
  - left. apply countTotalProduct_store.
Qed.

(** X13.  The ledger is append-only: whatever calls are made, with whatever
    engine faults, the entries present before are still there afterwards,
    unchanged and in the same positions. *)
Theorem ledger_append_only (cs : list Call) (db : Store) :
  purchases db `prefix_of` purchases (serve_all cs db).
Proof.
  revert db. induction cs as [|c cs IH]; intros db; simpl.
  - reflexivity.
  - etransitivity; [|apply IH].
    destruct (serve_cases c db) as [H | [(id & p & e & H & _) | (ids & H)]];
      rewrite H; simpl.
    + reflexivity.
    + apply prefix_app_r. reflexivity.
    + reflexivity.
Qed.

(** X14.  The service never writes the seller collection. *)
Theorem sellers_never_change (cs : list Call) (db : Store) :
  sellers (serve_all cs db) = sellers db.
Proof.
  revert db. induction cs as [|c cs IH]; intros db; simpl.
  - reflexivity.
  - rewrite IH.
    destruct (serve_cases c db) as [H | [(id & p & e & H & _) | (ids & H)]];
      rewrite H; reflexivity.
Qed.



(** ** Stock and ledger agree *)

Lemma ledger_quantity_snoc (id : ObjectId) (l : list Purchase) (e : Purchase) :
  ledger_quantity id (l ++ [e]) =
  ledger_quantity id l + (if decide (pu_product e = id) then pu_quantity e else 0).
Proof.
  induction l as [|x l IH]; simpl.
  - lia.
  - rewrite IH. lia.
Qed.

Lemma exec_keeps_ledger_matches (op : Op) (db : Store) :
  ledger_matches db -> ledger_matches (exec op db).
Proof.
  intros Hdb. destruct op as [f newId payload userId | f id payload userId];
    simpl.
  - destruct (hasRequiredFields (removeEmptyFields payload)) eqn:Hv;
      [|rewrite (create_rejects_payload _ _ _ _ _ Hv); exact Hdb].
    destruct (create_cases f newId payload userId db Hv)
      as [(p & sel & Hp & _ & Hfree & Hc) | (e & Hc & _)]; rewrite Hc; simpl;
      [|exact Hdb].
    apply Product_new_fields in Hp as (Hid & _).
    intros j. destruct (Hdb j) as [Hkey Hsum]. simpl.
    rewrite ledger_quantity_snoc. simpl. rewrite Hid.
    destruct (decide (newId = j)) as [<- | Hne].
    + rewrite lookup_insert_eq. simpl. split.
      * intros q [= <-]. exact Hid.
      * rewrite Hsum, Hfree. simpl. lia.
    + rewrite lookup_insert_ne by assumption. split; [exact Hkey|].
      rewrite Hsum. lia.
  - destruct (addToStock_cases f id payload userId db)
      as [(p & sel & Hp & _ & Hc) | (e & Hc & _)]; rewrite Hc; simpl;
      [|exact Hdb].
    assert (Hid : p_id p = id) by (apply (Hdb id); exact Hp).
    intros j. destruct (Hdb j) as [Hkey Hsum]. simpl.
    rewrite ledger_quantity_snoc. simpl. rewrite Hid.
    destruct (decide (id = j)) as [<- | Hne].
    + rewrite lookup_insert_eq. simpl. split.
      * intros q [= <-]. exact Hid.
      * rewrite Hsum, Hp. simpl. lia.
    + rewrite lookup_insert_ne by assumption. split; [exact Hkey|].
      rewrite Hsum. lia.
Qed.

(** X16.  Stock and ledger stay in step under [create] and [addToStock]: if
    every product is stored under its own id and, for every id, the
    quantities the ledger records for it add up to the product's stock (0
    where there is no product), the same holds after any sequence of the two
    operations, failed calls included. *)
Theorem ledger_matches_preserved (ops : list Op) (db : Store) :
  ledger_matches db -> ledger_matches (exec_all ops db).
Proof.
  revert db. induction ops as [|op ops IH]; intros db Hdb; simpl.
  - exact Hdb.
  - apply IH. apply exec_keeps_ledger_matches. exact Hdb.
Qed.

Lemma ledger_matches_preserved_witness :
  ledger_matches
    (exec_all [OpCreate no_faults "P1" widget "U1";
               OpAddStock no_faults "P1" (mkStockPayload "S1" 3) "U2";
               OpAddStock commit_fails "P1" (mkStockPayload "S1" 4) "U1";
               OpAddStock no_faults "P1" (mkStockPayload "S1" (-2)) "U1"] db0).
Proof.
  apply (ledger_matches_preserved
           [OpCreate no_faults "P1" widget "U1";
            OpAddStock no_faults "P1" (mkStockPayload "S1" 3) "U2";
            OpAddStock commit_fails "P1" (mkStockPayload "S1" 4) "U1";
            OpAddStock no_faults "P1" (mkStockPayload "S1" (-2)) "U1"] db0).
  intros id. simpl. rewrite lookup_empty. simpl.
  split; [discriminate|reflexivity].
Defined.

(** ** [countTotalProduct] *)

Lemma sum_stock_insert (m : gmap string Product) (i : string) (p : Product) :
  m !! i = None -> sum_stock (<[i := p]> m) = p_stock p + sum_stock m.
Proof.
  intros Hi. unfold sum_stock.
  rewrite map_fold_insert_L; [reflexivity| |exact Hi].
  intros. lia.
Qed.

Lemma sum_stock_replace (m : gmap string Product) (i : string) (p p' : Product) :
  m !! i = Some p ->
  sum_stock (<[i := p']> m) = sum_stock m - p_stock p + p_stock p'.
Proof.
  intros Hi.
  rewrite <- (insert_delete_eq m i p').
  rewrite sum_stock_insert by apply lookup_delete_eq.
  rewrite <- (insert_delete_id m i p Hi) at 2.
  rewrite sum_stock_insert by apply lookup_delete_eq.
  lia.
Qed.

Lemma sum_stock_empty_size (m : gmap string Product) :
  size m = 0%nat -> sum_stock m = 0.
Proof.
  intros H. apply map_size_empty_iff in H. subst m.
  unfold sum_stock. apply map_fold_empty.
Qed.

Lemma countTotalProduct_eq (userId : ObjectId) (db : Store) :
  countTotalProduct no_faults None userId db =
    (Ok (if decide (size (match_user userId (products db)) = 0%nat) then []
         else [mkTotalQuantity (sum_stock (match_user userId (products db)))]),
     db).
Proof. reflexivity. Qed.

(** X17.  The answer is the empty list, not a zero total, exactly when the user
    owns no product. *)
Theorem countTotalProduct_empty_iff (userId : ObjectId) (db : Store) :
  (countTotalProduct no_faults None userId db).1 = Ok [] <->
  (forall id p, products db !! id = Some p -> p_user p <> userId).
Proof.
  rewrite countTotalProduct_eq. simpl.
  assert (Hiff : size (match_user userId (products db)) = 0%nat <->
                 (forall id p, products db !! id = Some p -> p_user p <> userId)).
  { rewrite map_size_empty_iff. unfold match_user.
    rewrite map_empty_filter. reflexivity. }
  case_decide as Hsz.
  - split; [intros _; apply Hiff; exact Hsz | reflexivity].
  - split; [discriminate | intros H'; apply Hiff in H'; contradiction].
Qed.

Lemma countTotalProduct_empty_iff_witness :
  (countTotalProduct no_faults None "U2" db1).1 = Ok []
  /\ (countTotalProduct no_faults None "U1" db1).1 = Ok [mkTotalQuantity 5].
Proof.
  split.
  - apply (countTotalProduct_empty_iff "U2" db1).
    intros id p. unfold db1. simpl. rewrite lookup_singleton_Some.
    intros [_ <-]. discriminate.
  - vm_compute. reflexivity.
Defined.

Lemma match_user_insert_same (u : ObjectId) (m : gmap string Product)
    (i : string) (p : Product) :
  p_user p = u -> match_user u (<[i := p]> m) = <[i := p]> (match_user u m).
Proof. intros H. unfold match_user. apply map_filter_insert_True. exact H. Qed.

Lemma match_user_insert_other (u : ObjectId) (m : gmap string Product)
    (i : string) (p : Product) :
  p_user p <> u -> (forall q, m !! i = Some q -> p_user q <> u) ->
  match_user u (<[i := p]> m) = match_user u m.
Proof.
  intros H Hq. unfold match_user. apply map_filter_insert_not'.
  - exact H.
  - exact Hq.
Qed.

(** X18.  A successful [addToStock] raises the total of the product's owner by
    the delta, whoever made the call, and leaves every other user's answer
    as it was. *)
Theorem countTotalProduct_after_addToStock
    (f : Faults) (id : ObjectId) (payload : StockPayload) (userId : ObjectId)
    (db db' : Store) (p : Product) :
  addToStock f id payload userId db = (Ok p, db') ->
  (exists t,
     (countTotalProduct no_faults None (p_user p) db).1
       = Ok [mkTotalQuantity t]
     /\ (countTotalProduct no_faults None (p_user p) db').1
       = Ok [mkTotalQuantity (t + sp_stock payload)])
  /\ (forall u, u <> p_user p ->
        (countTotalProduct no_faults None u db').1
        = (countTotalProduct no_faults None u db).1).
Proof.
  intros H.
  destruct (addToStock_cases f id payload userId db)
    as [(p0 & sel0 & Hp0 & _ & Hc) | (e & Hc & _)]; rewrite Hc in H;
    [|discriminate].
  injection H as <- <-. rewrite !countTotalProduct_eq. simpl. split.
  - assert (Hm : match_user (p_user p0) (products db) !! id = Some p0).
    { apply map_lookup_filter_Some_2; [exact Hp0|reflexivity]. }
    exists (sum_stock (match_user (p_user p0) (products db))).
    rewrite match_user_insert_same by reflexivity.
    rewrite map_size_insert_Some by eauto.
    rewrite (sum_stock_replace _ _ _ _ Hm). simpl.
    rewrite !decide_False by (apply (map_size_ne_0_lookup_2 _ id); eauto).
    split; [reflexivity|]. do 3 f_equal. lia.
  - intros u Hu.
    rewrite match_user_insert_other; [reflexivity| |].
    + simpl. congruence.
    + intros q Hq. rewrite Hp0 in Hq. injection Hq as <-. congruence.
Qed.

Lemma countTotalProduct_after_addToStock_witness :
  exists t,
    (countTotalProduct no_faults None "U1" db1).1 = Ok [mkTotalQuantity t]
    /\ (countTotalProduct no_faults None "U1"
          (addToStock no_faults "P1" (mkStockPayload "S1" 3) "U2" db1).2).1
       = Ok [mkTotalQuantity (t + 3)].
Proof.
  apply (countTotalProduct_after_addToStock no_faults "P1"
           (mkStockPayload "S1" 3) "U2" db1 _ widget_product).
  vm_compute. reflexivity.
Defined.

(** X19.  A successful [create] adds the new product's stock to the acting
    user's total (an empty answer turning into that stock) and leaves every
    other user's answer as it was. *)
Theorem countTotalProduct_after_create
    (f : Faults) (newId : ObjectId) (payload : IProduct) (userId : ObjectId)
    (db db' : Store) (p : Product) :
  create f newId payload userId db = (Ok [p], db') ->
  ((countTotalProduct no_faults None userId db).1 = Ok [] ->
   (countTotalProduct no_faults None userId db').1
     = Ok [mkTotalQuantity (p_stock p)])
  /\ (forall t,
        (countTotalProduct no_faults None userId db).1
          = Ok [mkTotalQuantity t] ->
        (countTotalProduct no_faults None userId db').1
          = Ok [mkTotalQuantity (p_stock p + t)])
  /\ (forall u, u <> userId ->
        (countTotalProduct no_faults None u db').1
        = (countTotalProduct no_faults None u db).1).
Proof.
  intros H.
  apply create_ok_inv in H as (_ & q & sel & Hq & Hp & _ & Hfree & ->).
  injection Hq as <-.
  apply Product_new_fields in Hp as (_ & Hu & _).
  assert (Hm : match_user userId (products db) !! newId = None).
  { apply map_lookup_filter_None_2. left. exact Hfree. }
  assert (Hafter :
    (countTotalProduct no_faults None userId
       (mkStore (<[newId := p]> (products db))
                (purchases db ++ [create_purchase_entry userId sel p])
                (sellers db))).1
    = Ok [mkTotalQuantity
            (p_stock p + sum_stock (match_user userId (products db)))]).
  { rewrite countTotalProduct_eq. simpl.
    rewrite match_user_insert_same by exact Hu.
    rewrite sum_stock_insert by exact Hm.
    rewrite decide_False; [reflexivity|].
    apply (map_size_ne_0_lookup_2 _ newId). rewrite lookup_insert_eq. eauto. }
  rewrite Hafter. rewrite !countTotalProduct_eq. simpl.
  split; [|split].
  - case_decide as Hsz; [|discriminate]. intros _.
    rewrite (sum_stock_empty_size _ Hsz). do 3 f_equal. lia.
  - intros t. case_decide; [discriminate|]. intros [= <-]. reflexivity.
  - intros u Hne.
    rewrite match_user_insert_other; [reflexivity| |].
    + congruence.
    + intros q Hq. rewrite Hfree in Hq. discriminate.
Qed.

Lemma countTotalProduct_after_create_witness :
  (countTotalProduct no_faults None "U1" db1).1 = Ok [mkTotalQuantity 5].
Proof.
  apply (countTotalProduct_after_create no_faults "P1" widget "U1" db0 db1
           widget_product).
  - vm_compute. reflexivity.
  - vm_compute. reflexivity.
Defined.

(** ** [bulkDelete]: what is left *)

(** X20.  On a healthy engine a bulk delete removes exactly the listed ids,
    whoever owns the products: looking an id up afterwards finds nothing if
    it was listed and the product as it was otherwise. *)
Theorem bulkDelete_lookup (payload : list string) (db : Store) (id : ObjectId) :
  products (bulkDelete no_faults payload db).2 !! id =
    if decide (id ∈ payload) then None else products db !! id.
Proof.
  destruct (bulkDelete_cases no_faults payload db) as [[n H] | (m & _ & s & Hs)];
    [|discriminate].
  rewrite H. simpl. case_decide as Hin.
  - apply map_lookup_filter_None_2. right. intros p _ Hn. simpl in Hn.
    contradiction.
  - apply option_eq. intros p. rewrite map_lookup_filter_Some. simpl. tauto.
Qed.
